(** * ProxmoxMCP: the tool table and the process life cycle of [server.py]

    The development embeds [src/proxmox_mcp/server.py]:
    - the eleven tool wrappers declared in [ProxmoxMCPServer._setup_tools],
      each a one-line delegation to a facade method;
    - the constructor [ProxmoxMCPServer.__init__];
    - [ProxmoxMCPServer.start] with its signal handler;
    - the [__main__] block.

    The facades ([NodeTools], [VMTools], ...), the description constants
    of [tools/definitions.py] and the text of the interpreter's [TypeError]
    are not part of the file and enter as section variables.  The MCP runtime ([FastMCP]: registry, parameter validation,
    response envelope) is a library; the parts of it the statements need are
    modelled from the specification and marked as such. *)

From Stdlib Require Import ZArith Ascii String.
From stdpp Require Import gmap strings list fin_maps.

Open Scope string_scope.
Open Scope list_scope.

(** ** Python values and exceptions *)

(** [mcp.types.TextContent]: a content block whose [type] is always
    ["text"]. *)
Record TextContent := { text : string }.

(** The exception classes the file distinguishes: [except Exception] catches
    the first, [except KeyboardInterrupt] the second, and [sys.exit(n)]
    raises the third, which neither clause catches.  [PyException] carries
    [str(e)]; [SystemExit] carries an integer code, the only form
    [server.py] uses. *)
Inductive exn :=
| PyException (msg : string)
| KeyboardInterrupt
| SystemExit (code : Z).

(** Raw (JSON) parameter values of an invocation request. *)
Inductive value :=
| VStr (s : string)
| VInt (n : Z)
| VBool (b : bool)
| VNull.

(** ** The facades behind the wrappers *)

(** The facade methods the wrappers of [_setup_tools] delegate to. *)
Inductive handler :=
| NodeTools_get_nodes
| NodeTools_get_node_status
| VMTools_get_vms
| ContainerTools_get_containers
| VMTools_execute_command
| StorageTools_get_storage
| ClusterTools_get_cluster_status
| AIProxmoxDiagnostics_analyze_cluster_health
| AIProxmoxDiagnostics_diagnose_vm_issues
| AIProxmoxDiagnostics_suggest_resource_optimization
| AIProxmoxDiagnostics_analyze_security_posture.

(** The description constants imported from [tools/definitions.py]. *)
Record Definitions := {
  ANALYZE_CLUSTER_HEALTH_DESC : string;
  ANALYZE_SECURITY_POSTURE_DESC : string;
  DIAGNOSE_VM_ISSUES_DESC : string;
  EXECUTE_VM_COMMAND_DESC : string;
  GET_CLUSTER_STATUS_DESC : string;
  GET_CONTAINERS_DESC : string;
  GET_NODE_STATUS_DESC : string;
  GET_NODES_DESC : string;
  GET_STORAGE_DESC : string;
  GET_VMS_DESC : string;
  SUGGEST_RESOURCE_OPTIMIZATION_DESC : string
}.

(** A parameter of a tool signature: [name: Annotated[str, Field(description=...)]].
    Every parameter of the file is a [str] without default, hence required. *)
Inductive ptype := TStr.

Record Param := {
  p_name : string;
  p_type : ptype;
  p_required : bool;
  p_description : string
}.

Definition str_param (name description : string) : Param :=
  {| p_name := name; p_type := TStr; p_required := true;
     p_description := description |}.

(** ** The process: signals, logging, exit status *)

Inductive signal := SIGINT | SIGTERM.

(** What the process does on a signal: Python's default, or the closure
    [signal_handler] that [start] installs. *)
Inductive disposition := SIG_DFL | signal_handler_installed.

Inductive level := INFO | ERROR.

(** How the process ends: [sys.exit(code)], or death by a signal. *)
Inductive status := Exited (code : Z) | Signaled (s : signal).

(** The observable state of the process: what the program itself writes
    with [print] to standard output and to standard error, the records
    handed to [self.logger], the signal table, and the requests the
    transport has accepted ([in_flight]: no response written yet;
    [completed]: response written).  The response frames the transport
    writes to standard output are not recorded in [stdout]. *)
Record proc := {
  stdout : list string;
  stderr : list string;
  logged : list (level * string);
  on_sigint : disposition;
  on_sigterm : disposition;
  in_flight : list nat;
  completed : list nat
}.

(** A freshly started interpreter. *)
Definition boot : proc :=
  {| stdout := []; stderr := []; logged := [];
     on_sigint := SIG_DFL; on_sigterm := SIG_DFL;
     in_flight := []; completed := [] |}.

(** How a Python computation of the main thread ends: it returns, raises,
    or the process is killed under it. *)
Inductive outcome (A : Type) :=
| Returned (a : A)
| Raised (e : exn)
| Killed (s : signal).
Arguments Returned {A} a.
Arguments Raised {A} e.
Arguments Killed {A} s.

Definition P (A : Type) : Type := proc -> outcome A * proc.

Definition pret {A} (a : A) : P A := fun p => (Returned a, p).
Definition praise {A} (e : exn) : P A := fun p => (Raised e, p).
Definition pbind {A B} (m : P A) (k : A -> P B) : P B :=
  fun p => match m p with
           | (Returned a, p') => k a p'
           | (Raised e, p') => (Raised e, p')
           | (Killed s, p') => (Killed s, p')
           end.

Notation "m ;; k" := (pbind m (fun _ => k))
  (at level 100, right associativity).

(** The three ways the program changes the process state besides serving
    requests: a line on standard output, a record handed to the logger, a
    new entry of the signal table. *)
Definition write_stdout (s : string) (p : proc) : proc :=
  {| stdout := stdout p ++ [s]; stderr := stderr p; logged := logged p;
     on_sigint := on_sigint p; on_sigterm := on_sigterm p;
     in_flight := in_flight p; completed := completed p |}.

Definition log_record (l : level) (msg : string) (p : proc) : proc :=
  {| stdout := stdout p; stderr := stderr p;
     logged := logged p ++ [(l, msg)];
     on_sigint := on_sigint p; on_sigterm := on_sigterm p;
     in_flight := in_flight p; completed := completed p |}.

Definition set_disposition (s : signal) (d : disposition) (p : proc) : proc :=
  match s with
  | SIGINT =>
      {| stdout := stdout p; stderr := stderr p; logged := logged p;
         on_sigint := d; on_sigterm := on_sigterm p;
         in_flight := in_flight p; completed := completed p |}
  | SIGTERM =>
      {| stdout := stdout p; stderr := stderr p; logged := logged p;
         on_sigint := on_sigint p; on_sigterm := d;
         in_flight := in_flight p; completed := completed p |}
  end.

Definition disposition_of (s : signal) (p : proc) : disposition :=
  match s with
  | SIGINT => on_sigint p
  | SIGTERM => on_sigterm p
  end.

(** [print(s)]: the default stream of [print] is [sys.stdout]. *)
Definition print (s : string) : P unit :=
  fun p => (Returned tt, write_stdout s p).

(** [sys.exit(code)] raises [SystemExit]. *)
Definition sys_exit {A} (code : Z) : P A := praise (SystemExit code).

(** [self.logger.info(msg)] and [self.logger.error(msg)]. *)
Definition logger_info (msg : string) : P unit :=
  fun p => (Returned tt, log_record INFO msg p).

Definition logger_error (msg : string) : P unit :=
  fun p => (Returned tt, log_record ERROR msg p).

(** [signal.signal(s, handler)]. *)
Definition signal_signal (s : signal) (d : disposition) : P unit :=
  fun p => (Returned tt, set_disposition s d p).

(** [try: m except Exception as e: h(str(e))]. *)
Definition except_Exception {A} (m : P A) (h : string -> P A) : P A :=
  fun p => match m p with
           | (Raised (PyException msg), p') => h msg p'
           | r => r
           end.

(** [try: m except KeyboardInterrupt: h1 except Exception as e: h2(str(e))];
    an exception raised inside a clause is not caught by its sibling. *)
Definition except_KeyboardInterrupt_Exception {A}
  (m : P A) (h1 : P A) (h2 : string -> P A) : P A :=
  fun p => match m p with
           | (Raised KeyboardInterrupt, p') => h1 p'
           | (Raised (PyException msg), p') => h2 msg p'
           | r => r
           end.

(** The body of the closure [signal_handler] of [start]. *)
Definition signal_handler (signum : signal) : P unit :=
  logger_info "Received signal to shutdown..." ;;
  sys_exit 0.

(** What the event loop sees while [anyio.run(self.mcp.run_stdio_async)]
    runs: the transport accepts a request, an accepted request runs to its
    response, the operating system delivers a signal, or an exception
    escapes the loop. *)
Inductive event :=
| Accept (id : nat)
| Complete (id : nat)
| Deliver (s : signal)
| Fault (e : exn).

Definition is_request_event (ev : event) : bool :=
  match ev with
  | Accept _ | Complete _ => true
  | Deliver _ | Fault _ => false
  end.

(** The effect of a request event on the process state. *)
Definition request_step (p : proc) (ev : event) : proc :=
  match ev with
  | Accept id =>
      {| stdout := stdout p; stderr := stderr p; logged := logged p;
         on_sigint := on_sigint p; on_sigterm := on_sigterm p;
         in_flight := in_flight p ++ [id]; completed := completed p |}
  | Complete id =>
      if decide (id ∈ in_flight p) then
        {| stdout := stdout p; stderr := stderr p; logged := logged p;
           on_sigint := on_sigint p; on_sigterm := on_sigterm p;
           in_flight := filter (fun i => i ≠ id) (in_flight p);
           completed := completed p ++ [id] |}
      else p
  | _ => p
  end.

Definition request_steps (p : proc) (evs : list event) : proc :=
  foldl request_step p evs.

(** Delivery of a signal to the main thread: the installed handler runs;
    by default SIGINT raises [KeyboardInterrupt] and SIGTERM kills the
    process. *)
Definition deliver (s : signal) : P unit :=
  fun p =>
    match disposition_of s p with
    | signal_handler_installed => signal_handler s p
    | SIG_DFL =>
        match s with
        | SIGINT => (Raised KeyboardInterrupt, p)
        | SIGTERM => (Killed SIGTERM, p)
        end
    end.

(** [anyio.run(self.mcp.run_stdio_async)]: the event loop is the MCP
    runtime's, a library.  It is taken as the sequential interpreter of the
    events the environment supplies; a Python signal handler runs in the
    main thread and what it raises propagates out of the loop.  The loop
    returns when the events are exhausted (end of input).  The events after
    the one that ends the loop are not consumed: what a further signal does
    to a process that is already shutting down is the interpreter's and is
    not described here, so the statements about a run in which a signal or
    an exception ends the loop take only request events after it. *)
Fixpoint run_stdio_async (events : list event) : P unit :=
  match events with
  | [] => pret tt
  | ev :: rest =>
      match ev with
      | Accept _ | Complete _ =>
          fun p => run_stdio_async rest (request_step p ev)
      | Deliver s => deliver s ;; run_stdio_async rest
      | Fault e => praise e
      end
  end.

(** The status the operating system reports for [sys.exit(code)]: the
    interpreter converts the code to a C [long] (a code outside its range
    becomes [-1]) and the parent sees the low eight bits. *)
Definition exit_code (code : Z) : Z :=
  if decide (- 2 ^ 63 <= code < 2 ^ 63)%Z
  then Z.land code 255
  else 255%Z.

(** The exit status the interpreter reports for the main module, the
    standard streams being flushed without error at exit. *)
Definition exit_status (o : outcome unit) : status :=
  match o with
  | Returned _ => Exited 0
  | Raised (SystemExit code) => Exited (exit_code code)
  | Raised (PyException _) => Exited 1
  | Raised KeyboardInterrupt => Signaled SIGINT
  | Killed s => Signaled s
  end.

(** ** A sample deployment

    A concrete hypervisor on which the statements below can be evaluated:
    its state counts the API calls, command execution is unreachable, and
    every other facade method reports its arguments in two blocks. *)

Definition sample_run_handler (h : handler) (args : list string) (b : nat)
  : (string + list TextContent) * nat :=
  match h with
  | VMTools_execute_command => (inl "node unreachable", S b)
  | _ => (inr [ {| text := String.concat "," args |}; {| text := "ok" |} ],
          S b)
  end.

Definition sample_defs : Definitions :=
  {| ANALYZE_CLUSTER_HEALTH_DESC := "Analyze cluster health";
     ANALYZE_SECURITY_POSTURE_DESC := "Analyze security posture";
     DIAGNOSE_VM_ISSUES_DESC := "Diagnose VM issues";
     EXECUTE_VM_COMMAND_DESC := "Execute a command in a VM";
     GET_CLUSTER_STATUS_DESC := "Get cluster status";
     GET_CONTAINERS_DESC := "List containers";
     GET_NODE_STATUS_DESC := "Get the status of a node";
     GET_NODES_DESC := "List nodes";
     GET_STORAGE_DESC := "List storage";
     GET_VMS_DESC := "List VMs";
     SUGGEST_RESOURCE_OPTIMIZATION_DESC := "Suggest optimizations" |}.

Definition sample_arity_error (fname : string) (args : list string)
  : string :=
  fname +:+ "() does not take these arguments".

(** The constructor fails on ["missing.json"], is interrupted from the
    keyboard on ["slow.json"], and succeeds on every other path. *)
Definition sample_init_components (config_path : string) : option exn :=
  if decide (config_path = "missing.json")
  then Some (PyException "config file not found")
  else if decide (config_path = "slow.json")
  then Some KeyboardInterrupt
  else None.

(** The environment with nothing set, and one with the configuration
    path set. *)
Definition environ_unset : string -> option string := fun _ => None.

Definition environ_set (config_path : string) : string -> option string :=
  fun k => if decide (k = "PROXMOX_MCP_CONFIG") then Some config_path
           else None.

Section Server.

(** The state of the hypervisor behind the shared API handle, and the
    behaviour of each facade method on a tuple of string arguments: it
    returns a list of content blocks or raises an exception with a
    message.  Both live outside [server.py]. *)
Variable Backend : Type.
Variable run_handler :
  handler -> list string -> Backend -> (string + list TextContent) * Backend.
Variable defs : Definitions.

(** The text of the [TypeError] the interpreter raises when the function
    of that name is applied to an argument tuple that does not fit its
    signature. *)
Variable arity_error : string -> list string -> string.

(** The part of the constructor that runs before [_setup_tools]
    ([load_config], [setup_logging], [ProxmoxManager], the facades,
    [FastMCP]): [None] when it succeeds on a configuration path, the
    exception it raises otherwise. *)
Variable init_components : string -> option exn.

(** ** State and the computation monad *)

(** The world a tool call runs in: the hypervisor state and the record of
    facade calls made so far (handler and argument tuple, oldest first). *)
Record world := {
  backend : Backend;
  calls : list (handler * list string)
}.

Definition M (A : Type) : Type := world -> (exn + A) * world.

Definition ret {A} (a : A) : M A := fun w => (inr a, w).
Definition raise {A} (e : exn) : M A := fun w => (inl e, w).
Definition bind {A B} (m : M A) (k : A -> M B) : M B :=
  fun w => match m w with
           | (inr a, w') => k a w'
           | (inl e, w') => (inl e, w')
           end.

(** [try: m except Exception as e: h(str(e))]; the other classes pass. *)
Definition try_except {A} (m : M A) (h : string -> M A) : M A :=
  fun w => match m w with
           | (inl (PyException msg), w') => h msg w'
           | r => r
           end.

Notation "'do' x <- m ; k" := (bind m (fun x => k))
  (at level 10, x name, m at level 100, k at level 200).

(** A call [self.<facade>.<method>(args)]: the call is recorded, the facade
    runs on the hypervisor state, and an exception of the facade propagates
    to the caller. *)
Definition invoke (h : handler) (args : list string) : M (list TextContent) :=
  fun w =>
    let '(r, b') := run_handler h args (backend w) in
    let w' := {| backend := b'; calls := calls w ++ [(h, args)] |} in
    match r with
    | inr items => (inr items, w')
    | inl msg => (inl (PyException msg), w')
    end.

(** ** The wrappers of [_setup_tools]

    [await] of a facade coroutine is the same delegation: the wrapper
    resumes with the coroutine's result or exception. *)

Definition get_nodes : M (list TextContent) :=
  invoke NodeTools_get_nodes [].

Definition get_node_status (node : string) : M (list TextContent) :=
  invoke NodeTools_get_node_status [node].

Definition get_vms : M (list TextContent) :=
  invoke VMTools_get_vms [].

Definition get_containers : M (list TextContent) :=
  invoke ContainerTools_get_containers [].

Definition execute_vm_command (node vmid command : string)
  : M (list TextContent) :=
  invoke VMTools_execute_command [node; vmid; command].

Definition get_storage : M (list TextContent) :=
  invoke StorageTools_get_storage [].

Definition get_cluster_status : M (list TextContent) :=
  invoke ClusterTools_get_cluster_status [].

Definition analyze_cluster_health : M (list TextContent) :=
  invoke AIProxmoxDiagnostics_analyze_cluster_health [].

Definition diagnose_vm_issues (node vmid : string) : M (list TextContent) :=
  invoke AIProxmoxDiagnostics_diagnose_vm_issues [node; vmid].

Definition suggest_resource_optimization : M (list TextContent) :=
  invoke AIProxmoxDiagnostics_suggest_resource_optimization [].

Definition analyze_security_posture : M (list TextContent) :=
  invoke AIProxmoxDiagnostics_analyze_security_posture [].

(** Calling a Python function of fixed arity on an argument tuple: a tuple
    of another length raises [TypeError] before the body runs. *)
Definition type_error {A} (fname : string) (args : list string) : M A :=
  raise (PyException (arity_error fname args)).

Definition call0 (fname : string) (f : M (list TextContent))
  (args : list string) : M (list TextContent) :=
  match args with [] => f | _ => type_error fname args end.

Definition call1 (fname : string) (f : string -> M (list TextContent))
  (args : list string) : M (list TextContent) :=
  match args with [a] => f a | _ => type_error fname args end.

Definition call2 (fname : string)
  (f : string -> string -> M (list TextContent))
  (args : list string) : M (list TextContent) :=
  match args with [a; b] => f a b | _ => type_error fname args end.

Definition call3 (fname : string)
  (f : string -> string -> string -> M (list TextContent))
  (args : list string) : M (list TextContent) :=
  match args with [a; b; c] => f a b c | _ => type_error fname args end.

(** ** The tool registry *)

(** What a decorated function contributes to the registry: its name, the
    description given to the decorator, the parameters of its signature,
    whether it is [async def], and the function itself. *)
Record Tool := {
  name : string;
  description : string;
  parameters : list Param;
  is_async : bool;
  fn : list string -> M (list TextContent)
}.

(** The eleven decorated functions of [_setup_tools], in source order. *)

Definition get_nodes_tool : Tool :=
  {| name := "get_nodes"; description := GET_NODES_DESC defs;
     parameters := []; is_async := false; fn := call0 "get_nodes" get_nodes |}.

Definition get_node_status_tool : Tool :=
  {| name := "get_node_status"; description := GET_NODE_STATUS_DESC defs;
     parameters :=
       [str_param "node"
          "Name/ID of node to query (e.g. 'pve1', 'proxmox-node2')"];
     is_async := false; fn := call1 "get_node_status" get_node_status |}.

Definition get_vms_tool : Tool :=
  {| name := "get_vms"; description := GET_VMS_DESC defs;
     parameters := []; is_async := false; fn := call0 "get_vms" get_vms |}.

Definition get_containers_tool : Tool :=
  {| name := "get_containers"; description := GET_CONTAINERS_DESC defs;
     parameters := []; is_async := false; fn := call0 "get_containers" get_containers |}.

Definition execute_vm_command_tool : Tool :=
  {| name := "execute_vm_command";
     description := EXECUTE_VM_COMMAND_DESC defs;
     parameters :=
       [str_param "node" "Host node name (e.g. 'pve1', 'proxmox-node2')";
        str_param "vmid" "VM ID number (e.g. '100', '101')";
        str_param "command"
          "Shell command to run (e.g. 'uname -a', 'systemctl status nginx')"];
     is_async := true; fn := call3 "execute_vm_command" execute_vm_command |}.

Definition get_storage_tool : Tool :=
  {| name := "get_storage"; description := GET_STORAGE_DESC defs;
     parameters := []; is_async := false; fn := call0 "get_storage" get_storage |}.

Definition get_cluster_status_tool : Tool :=
  {| name := "get_cluster_status";
     description := GET_CLUSTER_STATUS_DESC defs;
     parameters := []; is_async := false; fn := call0 "get_cluster_status" get_cluster_status |}.

Definition analyze_cluster_health_tool : Tool :=
  {| name := "analyze_cluster_health";
     description := ANALYZE_CLUSTER_HEALTH_DESC defs;
     parameters := []; is_async := true; fn := call0 "analyze_cluster_health" analyze_cluster_health |}.

Definition diagnose_vm_issues_tool : Tool :=
  {| name := "diagnose_vm_issues";
     description := DIAGNOSE_VM_ISSUES_DESC defs;
     parameters :=
       [str_param "node"
          "Proxmox node name hosting the VM (e.g. 'pve1', 'proxmox-node2')";
        str_param "vmid"
          "Virtual machine ID to diagnose (e.g. '100', '101')"];
     is_async := true; fn := call2 "diagnose_vm_issues" diagnose_vm_issues |}.

Definition suggest_resource_optimization_tool : Tool :=
  {| name := "suggest_resource_optimization";
     description := SUGGEST_RESOURCE_OPTIMIZATION_DESC defs;
     parameters := []; is_async := true;
     fn := call0 "suggest_resource_optimization" suggest_resource_optimization |}.

Definition analyze_security_posture_tool : Tool :=
  {| name := "analyze_security_posture";
     description := ANALYZE_SECURITY_POSTURE_DESC defs;
     parameters := []; is_async := true;
     fn := call0 "analyze_security_posture" analyze_security_posture |}.

(** The facade method each tool delegates to, read off the wrapper
    bodies. *)
Definition delegation : gmap string handler :=
  list_to_map
    [("get_nodes", NodeTools_get_nodes);
     ("get_node_status", NodeTools_get_node_status);
     ("get_vms", VMTools_get_vms);
     ("get_containers", ContainerTools_get_containers);
     ("execute_vm_command", VMTools_execute_command);
     ("get_storage", StorageTools_get_storage);
     ("get_cluster_status", ClusterTools_get_cluster_status);
     ("analyze_cluster_health", AIProxmoxDiagnostics_analyze_cluster_health);
     ("diagnose_vm_issues", AIProxmoxDiagnostics_diagnose_vm_issues);
     ("suggest_resource_optimization",
      AIProxmoxDiagnostics_suggest_resource_optimization);
     ("analyze_security_posture",
      AIProxmoxDiagnostics_analyze_security_posture)].

(** The decorated functions, in source order. *)
Definition declared_tools : list Tool :=
  [get_nodes_tool; get_node_status_tool; get_vms_tool; get_containers_tool;
   execute_vm_command_tool; get_storage_tool; get_cluster_status_tool;
   analyze_cluster_health_tool; diagnose_vm_issues_tool;
   suggest_resource_optimization_tool; analyze_security_posture_tool].

Inductive RegistrationError := mkRegistrationError (identifier : string).

(** Modelled from the spec: the registry of the MCP runtime and [lookup] of
    section 4.1, the descriptor and handler of an identifier, or [None] for
    NotFound.  The registry keeps its entries in registration order; an
    association list, so that uniqueness of the identifiers is a property to
    prove and not one of the representation. *)
Fixpoint lookup_tool (reg : list (string * Tool)) (identifier : string)
  : option Tool :=
  match reg with
  | [] => None
  | (k, t) :: rest =>
      if decide (k = identifier) then Some t else lookup_tool rest identifier
  end.

(** Registration runs in a state-and-error monad over the registry. *)
Definition R (A : Type) : Type :=
  list (string * Tool) -> (RegistrationError + A) * list (string * Tool).

Definition seqR (m : R unit) (k : R unit) : R unit :=
  fun reg => match m reg with
             | (inr _, reg') => k reg'
             | (inl e, reg') => (inl e, reg')
             end.

Notation "m >>> k" := (seqR m k) (at level 61, left associativity).

(** Modelled from the spec: the registration of the MCP runtime
    ([FastMCP.tool], outside [server.py]).  Section 4.1: [register] fails if
    the identifier is already registered; otherwise the registry maps the
    identifier to the descriptor and handler. *)
Definition register (t : Tool) : R unit :=
  fun reg => match lookup_tool reg (name t) with
             | Some _ => (inl (mkRegistrationError (name t)), reg)
             | None => (inr tt, reg ++ [(name t, t)])
             end.

(** [_setup_tools]: each [@self.mcp.tool(description=...)] registers the
    function it decorates, in source order. *)
Definition _setup_tools : R unit :=
  (* Node tools *)
  register get_nodes_tool
  >>> register get_node_status_tool
  (* VM tools *)
  >>> register get_vms_tool
  (* Container tools *)
  >>> register get_containers_tool
  >>> register execute_vm_command_tool
  (* Storage tools *)
  >>> register get_storage_tool
  (* Cluster tools *)
  >>> register get_cluster_status_tool
  (* AI Diagnostic tools *)
  >>> register analyze_cluster_health_tool
  >>> register diagnose_vm_issues_tool
  >>> register suggest_resource_optimization_tool
  >>> register analyze_security_posture_tool.

(** The registry the server runs with: what [_setup_tools] leaves when it
    starts from the empty registry of a fresh [FastMCP] object. *)
Definition registry : list (string * Tool) := snd (_setup_tools []).

(** The registry entry of a tool, and a list of tools registered in
    order, stopping at the first failure. *)
Definition entry (t : Tool) : string * Tool := (name t, t).

Fixpoint register_list (ts : list Tool) : R unit :=
  match ts with
  | [] => fun reg => (inr tt, reg)
  | t :: rest => register t >>> register_list rest
  end.

(** Registration attempts made one after the other, each on the registry
    the previous one left, whether it failed or not. *)
Definition register_each (ts : list Tool) (reg : list (string * Tool))
  : list (string * Tool) :=
  foldl (fun r t => snd (register t r)) reg ts.

(** ** Invocation *)

(** Modelled from the spec: the InvocationRequest of section 3, the tool
    identifier and the raw parameters. *)
Record InvocationRequest := {
  req_tool : string;
  req_params : gmap string value
}.

(** Modelled from the spec: the InvocationResponse of section 3, an ordered
    list of text blocks, flagged when it reports a failure. *)
Record InvocationResponse := {
  isError : bool;
  content : list TextContent
}.

(** Modelled from the spec: the recoverable failures of section 7 and the
    field errors a ValidationError enumerates. *)
Inductive field_error :=
| Missing (field : string)
| WrongType (field : string).

Inductive Failure :=
| NotFound (identifier : string)
| ValidationError (errs : list field_error)
| HandlerError (msg : string).

(** The request supplies every parameter of the schema, well typed: [args]
    are the supplied strings in schema order. *)
Definition supplied (schema : list Param) (raw : gmap string value)
  (args : list string) : Prop :=
  Forall2 (fun p a => raw !! p_name p = Some (VStr a)) schema args.

(** Modelled from the spec: the parameter validator of the MCP runtime
    (section 4.2).  A string-typed parameter passes through as it is, no
    other value is coerced, and an absent required parameter is an
    error. *)
Definition check_param (p : Param) (raw : gmap string value)
  : field_error + option string :=
  match raw !! p_name p with
  | Some v =>
      match p_type p, v with
      | TStr, VStr s => inr (Some s)
      | TStr, _ => inl (WrongType (p_name p))
      end
  | None => if p_required p then inl (Missing (p_name p)) else inr None
  end.

(** Modelled from the spec: section 4.2, all fields are checked and the
    errors enumerated, in schema order. *)
Fixpoint check_params (schema : list Param) (raw : gmap string value)
  : list field_error * list string :=
  match schema with
  | [] => ([], [])
  | p :: ps =>
      let '(errs, args) := check_params ps raw in
      match check_param p raw with
      | inl e => (e :: errs, args)
      | inr (Some s) => (errs, s :: args)
      | inr None => (errs, args)
      end
  end.

(** Modelled from the spec: section 4.2, a typed argument tuple or a
    ValidationError. *)
Definition validate (schema : list Param) (raw : gmap string value)
  : list field_error + list string :=
  match check_params schema raw with
  | ([], args) => inr args
  | (errs, _) => inl errs
  end.

(** Modelled from the spec: the control flow of section 2, lookup by tool
    identifier, parameter validation, handler call; a handler exception
    becomes a HandlerError, without another attempt (section 4.3). *)
Definition dispatch (reg : list (string * Tool)) (req : InvocationRequest)
  : M (Failure + list TextContent) :=
  match lookup_tool reg (req_tool req) with
  | None => ret (inl (NotFound (req_tool req)))
  | Some t =>
      match validate (parameters t) (req_params req) with
      | inl errs => ret (inl (ValidationError errs))
      | inr args =>
          try_except
            (do items <- fn t args; ret (inr items))
            (fun msg => ret (inl (HandlerError msg)))
      end
  end.

Definition field_error_text (e : field_error) : string :=
  match e with
  | Missing f => f +:+ ": field required"
  | WrongType f => f +:+ ": input should be a valid string"
  end.

Definition describe (f : Failure) : string :=
  match f with
  | NotFound identifier => "Unknown tool: " +:+ identifier
  | ValidationError errs =>
      "Validation error: " +:+ String.concat "; " (field_error_text <$> errs)
  | HandlerError msg => "Error executing tool: " +:+ msg
  end.

(** Modelled from the spec: section 4.4, a successful result is the ordered
    list of text blocks the handler produced, a failure is a single text
    block describing it. *)
Definition envelope (r : Failure + list TextContent) : InvocationResponse :=
  match r with
  | inr items => {| isError := false; content := items |}
  | inl f => {| isError := true; content := [ {| text := describe f |} ] |}
  end.

(** Modelled from the spec: section 6, the transport boundary receives the
    envelope of the dispatch result. *)
Definition call_tool (reg : list (string * Tool)) (req : InvocationRequest)
  : M InvocationResponse :=
  do r <- dispatch reg req; ret (envelope r).

(** Modelled from the spec: requests served one after the other, in
    arrival order (section 5). *)
Fixpoint serve (reg : list (string * Tool)) (reqs : list InvocationRequest)
  : M (list InvocationResponse) :=
  match reqs with
  | [] => ret []
  | req :: rest =>
      do resp <- call_tool reg req;
      do resps <- serve reg rest;
      ret (resp :: resps)
  end.

(** ** The server object and the main module *)

Record ProxmoxMCPServer := { mcp : list (string * Tool) }.

(** [ProxmoxMCPServer.__init__]. *)
Definition __init__ (config_path : string) : P ProxmoxMCPServer :=
  match init_components config_path with
  | Some e => praise e
  | None =>
      match _setup_tools [] with
      | (inr _, reg) => pret {| mcp := reg |}
      | (inl (mkRegistrationError identifier), _) =>
          praise (PyException ("Tool already exists: " +:+ identifier))
      end
  end.

(** [ProxmoxMCPServer.start]. *)
Definition start (self : ProxmoxMCPServer) (events : list event) : P unit :=
  (* Set up signal handlers *)
  signal_signal SIGINT signal_handler_installed ;;
  signal_signal SIGTERM signal_handler_installed ;;
  except_Exception
    (logger_info "Starting MCP server..." ;;
     run_stdio_async events)
    (fun e =>
       logger_error ("Server error: " +:+ e) ;;
       sys_exit 1).

(** Python truthiness of the result of [os.getenv]: [None] and the empty
    string are false. *)
Definition truthy (v : option string) : bool :=
  match v with
  | Some (String _ _) => true
  | _ => false
  end.

(** The [__main__] block, on the environment [environ] and the events the
    server will see once it runs. *)
Definition __main__ (environ : string -> option string)
  (events : list event) : P unit :=
  let config_path := environ "PROXMOX_MCP_CONFIG" in
  (if negb (truthy config_path) then
     print "PROXMOX_MCP_CONFIG environment variable must be set" ;;
     sys_exit 1
   else pret tt) ;;
  except_KeyboardInterrupt_Exception
    (pbind (__init__ (default "" config_path))
       (fun server => start server events))
    (print (String "010"%char "Shutting down gracefully...") ;;
     sys_exit 0)
    (fun e =>
       print ("Error: " +:+ e) ;;
       sys_exit 1).

(** The process state once [start] has installed both handlers and logged
    that the server starts. *)
Definition started (p : proc) : proc :=
  log_record INFO "Starting MCP server..."
    (set_disposition SIGTERM signal_handler_installed
       (set_disposition SIGINT signal_handler_installed p)).

(** Running the program: the exit status and the final process state. *)
Definition run (environ : string -> option string) (events : list event)
  (p : proc) : status * proc :=
  let '(o, p') := __main__ environ events p in (exit_status o, p').

(** * Properties *)

(** ** The registry *)

Lemma lookup_tool_app reg1 reg2 k :
  lookup_tool (reg1 ++ reg2) k =
  match lookup_tool reg1 k with
  | Some t => Some t
  | None => lookup_tool reg2 k
  end.
Proof.
  induction reg1 as [|[k' t'] reg1 IH]; simpl; [done|].
  case_decide; done.
Qed.

Lemma lookup_tool_None reg k :
  lookup_tool reg k = None <-> k ∉ reg.*1.
Proof.
  induction reg as [|[k' t'] reg IH]; simpl.
  - split; [intros _; apply not_elem_of_nil | done].
  - rewrite not_elem_of_cons. destruct (decide (k' = k)) as [->|Hne].
    + split; [done | by intros [? _]].
    + rewrite IH. split; [by intros ? | by intros [_ ?]].
Qed.

Lemma lookup_tool_Some_elem reg k t :
  lookup_tool reg k = Some t -> (k, t) ∈ reg.
Proof.
  induction reg as [|[k' t'] reg IH]; simpl; [done|].
  destruct (decide (k' = k)) as [->|Hne]; intros Hl.
  - simplify_eq. apply elem_of_cons; by left.
  - apply elem_of_cons; right; auto.
Qed.

Lemma lookup_tool_elem_NoDup reg k t :
  NoDup reg.*1 -> (k, t) ∈ reg -> lookup_tool reg k = Some t.
Proof.
  induction reg as [|[k' t'] reg IH]; simpl; intros Hnd Hin.
  - by apply elem_of_nil in Hin.
  - apply NoDup_cons in Hnd as [Hk' Hnd].
    apply elem_of_cons in Hin as [Heq|Hin].
    + simplify_eq. by rewrite decide_True.
    + rewrite decide_False; [by apply IH|].
      intros ->. apply Hk'.
      apply list_elem_of_fmap. by exists (k, t).
Qed.

(** A registration either fails and leaves the registry as it was, or
    appends one entry under a fresh identifier. *)
Lemma register_cases t reg :
  (is_Some (lookup_tool reg (name t)) /\
   register t reg = (inl (mkRegistrationError (name t)), reg)) \/
  ((name t ∉ reg.*1) /\ register t reg = (inr tt, reg ++ [entry t])).
Proof.
  unfold register.
  destruct (lookup_tool reg (name t)) as [old|] eqn:E.
  - left; split; [by exists old | done].
  - right; split; [by apply lookup_tool_None | done].
Qed.

Lemma register_NoDup t reg :
  NoDup reg.*1 -> NoDup (snd (register t reg)).*1.
Proof.
  intros Hnd. destruct (register_cases t reg) as [[_ ->]|[Hfresh ->]]; simpl.
  - done.
  - rewrite fmap_app. apply NoDup_app. split; [done|]. split.
    + intros k Hk Hk'. simpl in Hk'.
      apply list_elem_of_singleton in Hk'. by subst.
    + apply NoDup_singleton.
Qed.

Lemma register_each_NoDup ts reg :
  NoDup reg.*1 -> NoDup (register_each ts reg).*1.
Proof.
  revert reg. induction ts as [|t ts IH]; intros reg Hnd; simpl; [done|].
  apply IH. by apply register_NoDup.
Qed.

(** Registering tools with pairwise distinct fresh names succeeds and
    appends their entries in order. *)
Lemma register_list_fresh ts reg :
  NoDup (name <$> ts) ->
  (forall t, t ∈ ts -> name t ∉ reg.*1) ->
  register_list ts reg = (inr tt, reg ++ (entry <$> ts)).
Proof.
  revert reg. induction ts as [|t ts IH]; intros reg Hnd Hfresh; simpl.
  - by rewrite app_nil_r.
  - apply NoDup_cons in Hnd as [Ht Hnd].
    unfold seqR.
    destruct (register_cases t reg) as [[Hsome _]|[_ ->]].
    + destruct Hsome as [old Hold].
      assert (name t ∉ reg.*1) as Hn
        by (apply Hfresh, elem_of_cons; by left).
      apply lookup_tool_None in Hn. congruence.
    + rewrite IH; [by rewrite <- app_assoc | done |].
      intros t' Ht'. rewrite fmap_app, elem_of_app. intros [Hin|Hin].
      * revert Hin. apply Hfresh, elem_of_cons; by right.
      * simpl in Hin. apply list_elem_of_singleton in Hin.
        apply Ht. rewrite <- Hin. apply list_elem_of_fmap. by exists t'.
Qed.

Lemma declared_names_NoDup : NoDup (name <$> declared_tools).
Proof. apply (bool_decide_unpack _). by vm_compute. Qed.

Lemma setup_tools_as_list : _setup_tools [] = register_list declared_tools [].
Proof. reflexivity. Qed.

Lemma setup_tools_ok : _setup_tools [] = (inr tt, entry <$> declared_tools).
Proof.
  rewrite setup_tools_as_list.
  rewrite register_list_fresh; [done | apply declared_names_NoDup |].
  intros t _. simpl. apply not_elem_of_nil.
Qed.

Lemma registry_entries : registry = entry <$> declared_tools.
Proof. unfold registry. by rewrite setup_tools_ok. Qed.

Lemma registry_NoDup : NoDup registry.*1.
Proof.
  rewrite registry_entries, <- list_fmap_compose.
  apply declared_names_NoDup.
Qed.

Lemma registry_lookup_declared id t :
  lookup_tool registry id = Some t <-> t ∈ declared_tools /\ name t = id.
Proof.
  split.
  - intros H. apply lookup_tool_Some_elem in H.
    rewrite registry_entries in H.
    apply list_elem_of_fmap in H as (t' & Heq & Hin).
    unfold entry in Heq. by simplify_eq.
  - intros [Hin <-]. apply lookup_tool_elem_NoDup; [apply registry_NoDup|].
    rewrite registry_entries. apply list_elem_of_fmap. by exists t.
Qed.

(** ** Parameter validation *)

Lemma supplied_check_params schema raw args :
  supplied schema raw args -> check_params schema raw = ([], args).
Proof.
  unfold supplied. induction 1 as [|p a schema args Hp _ IH]; simpl; [done|].
  rewrite IH. unfold check_param. rewrite Hp. by destruct (p_type p).
Qed.

Lemma supplied_validate schema raw args :
  supplied schema raw args -> validate schema raw = inr args.
Proof.
  intros H. unfold validate. by rewrite (supplied_check_params _ _ _ H).
Qed.

(** A required parameter that is absent, or present with a value that is
    not a string, is reported by [check_param]. *)
Lemma check_param_rejects p raw :
  p_required p = true ->
  (forall s, raw !! p_name p ≠ Some (VStr s)) ->
  exists e, check_param p raw = inl e /\
            (e = Missing (p_name p) \/ e = WrongType (p_name p)).
Proof.
  intros Hreq Hbad. unfold check_param.
  destruct (raw !! p_name p) as [v|] eqn:E.
  - destruct (p_type p), v as [s| | |];
      [by destruct (Hbad s) | | |]; eexists; split; eauto.
  - rewrite Hreq. eexists; split; eauto.
Qed.

Lemma check_params_collects schema raw p e :
  p ∈ schema -> check_param p raw = inl e -> e ∈ fst (check_params schema raw).
Proof.
  induction schema as [|q schema IH]; intros Hin He; simpl.
  - by apply elem_of_nil in Hin.
  - destruct (check_params schema raw) as [errs args] eqn:Ecp.
    apply elem_of_cons in Hin as [<-|Hin].
    + rewrite He. simpl. apply elem_of_cons; by left.
    + specialize (IH Hin He). simpl in IH.
      destruct (check_param q raw) as [e'|[s|]]; simpl; [|done|done].
      apply elem_of_cons; by right.
Qed.

Lemma validate_rejects schema raw p e :
  p ∈ schema -> check_param p raw = inl e ->
  exists errs, validate schema raw = inl errs /\ e ∈ errs.
Proof.
  intros Hin He. pose proof (check_params_collects _ _ _ _ Hin He) as Hc.
  unfold validate. destruct (check_params schema raw) as [[|e' errs] args].
  - by apply elem_of_nil in Hc.
  - by exists (e' :: errs).
Qed.

(** ** The wrappers *)

Lemma invoke_calls h args w :
  calls (snd (invoke h args w)) = calls w ++ [(h, args)].
Proof.
  unfold invoke. by destruct (run_handler h args (backend w)) as [[msg|items] b'].
Qed.

Lemma invoke_result h args w :
  fst (invoke h args w) =
  match fst (run_handler h args (backend w)) with
  | inr items => inr items
  | inl msg => inl (PyException msg)
  end.
Proof.
  unfold invoke. by destruct (run_handler h args (backend w)) as [[msg|items] b'].
Qed.

Ltac declared_cases H :=
  unfold declared_tools in H;
  repeat (apply elem_of_cons in H as [->|H]);
  [ .. | by apply elem_of_nil in H ].

(** On the argument tuple of a well-formed request, the function of every
    registered tool is the call of the facade method of [delegation] on
    that tuple. *)
Lemma registered_fn_delegates id t raw args :
  lookup_tool registry id = Some t ->
  supplied (parameters t) raw args ->
  exists h, delegation !! id = Some h /\ fn t args = invoke h args.
Proof.
  intros Hl Hs. apply registry_lookup_declared in Hl as [Hin <-].
  unfold supplied in Hs.
  declared_cases Hin; simpl in *;
    repeat match goal with
           | H : Forall2 _ (_ :: _) _ |- _ =>
               apply Forall2_cons_inv_l in H as (? & ? & _ & H & ->)
           | H : Forall2 _ [] _ |- _ => apply Forall2_nil_inv_l in H as ->
           end;
    eexists; (split; [by vm_compute | reflexivity]).
Qed.

(** On any argument tuple, the function of a registered tool calls one
    facade method on it, or raises [TypeError] without calling any. *)
Lemma registered_fn_total id t args w :
  lookup_tool registry id = Some t ->
  fn t args w = (inl (PyException (arity_error (name t) args)), w) \/
  exists h, fn t args w = invoke h args w.
Proof.
  intros Hl. apply registry_lookup_declared in Hl as [Hin <-].
  declared_cases Hin; simpl;
    destruct args as [|a1 [|a2 [|a3 [|a4 args]]]]; simpl;
    first [ by left | right; eexists; reflexivity ].
Qed.

(** The dispatcher on a well-formed request for a registered tool. *)
Lemma dispatch_well_formed id t raw args h w :
  lookup_tool registry id = Some t ->
  validate (parameters t) raw = inr args ->
  fn t args = invoke h args ->
  dispatch registry {| req_tool := id; req_params := raw |} w =
  match run_handler h args (backend w) with
  | (inr items, b') =>
      (inr (inr items), {| backend := b'; calls := calls w ++ [(h, args)] |})
  | (inl msg, b') =>
      (inr (inl (HandlerError msg)),
       {| backend := b'; calls := calls w ++ [(h, args)] |})
  end.
Proof.
  intros Hl Hv Hfn. unfold dispatch; cbn [req_tool req_params].
  rewrite Hl, Hv, Hfn.
  unfold try_except, bind, invoke, ret.
  by destruct (run_handler h args (backend w)) as [[msg|items] b'].
Qed.

(** ** The dispatch contract *)

(** C1: for a registered tool and a request that supplies every parameter
    of its schema as a string, the dispatcher reaches the facade method the
    wrapper delegates to exactly once, on exactly the supplied values in
    schema order.  The record of facade calls grows by that single entry,
    the hypervisor is left in the state one run of the facade on those
    values leaves it in, and the response is built from the result of that
    one run, whether it returns or raises: a failed call is not repeated. *)
Theorem dispatch_invokes_handler_once
  (id : string) (t : Tool) (raw : gmap string value) (args : list string)
  (w : world) :
  lookup_tool registry id = Some t ->
  supplied (parameters t) raw args ->
  exists h,
    delegation !! id = Some h /\
    fn t args = invoke h args /\
    calls (snd (call_tool registry {| req_tool := id; req_params := raw |} w))
    = calls w ++ [(h, args)] /\
    backend (snd (call_tool registry {| req_tool := id; req_params := raw |} w))
    = snd (run_handler h args (backend w)) /\
    fst (call_tool registry {| req_tool := id; req_params := raw |} w)
    = inr (envelope
             match fst (run_handler h args (backend w)) with
             | inr items => inr items
             | inl msg => inl (HandlerError msg)
             end).
Proof.
  intros Hl Hs.
  destruct (registered_fn_delegates _ _ _ _ Hl Hs) as (h & Hd & Hfn).
  exists h. split; [done|]. split; [done|].
  unfold call_tool, bind.
  rewrite (dispatch_well_formed _ _ _ _ _ w Hl (supplied_validate _ _ _ Hs) Hfn).
  by destruct (run_handler h args (backend w)) as [[msg|items] b'].
Qed.

(** C2: when the facade method returns a list of content blocks, the
    wrapper returns that very list and the response envelope carries it as
    its content: the same blocks, in the same order, in the same number. *)
Theorem success_envelope_is_handler_result
  (id : string) (t : Tool) (raw : gmap string value) (args : list string)
  (w : world) (h : handler) (items : list TextContent) (b' : Backend) :
  lookup_tool registry id = Some t ->
  supplied (parameters t) raw args ->
  delegation !! id = Some h ->
  run_handler h args (backend w) = (inr items, b') ->
  fst (fn t args w) = inr items /\
  fst (call_tool registry {| req_tool := id; req_params := raw |} w)
  = inr {| isError := false; content := items |} /\
  length (content (envelope (inr items))) = length items.
Proof.
  intros Hl Hs Hd Hrun.
  destruct (registered_fn_delegates _ _ _ _ Hl Hs) as (h' & Hd' & Hfn).
  assert (h' = h) as -> by congruence.
  split; [|split; [|done]].
  - rewrite Hfn, invoke_result. by rewrite Hrun.
  - unfold call_tool, bind.
    rewrite (dispatch_well_formed _ _ _ _ _ w Hl (supplied_validate _ _ _ Hs) Hfn).
    by rewrite Hrun.
Qed.

(** C3: when a required parameter of a registered tool is absent from the
    request, or present with a value that is not a string, the dispatcher
    answers with a ValidationError that lists the parameter, and the world
    is unchanged: no facade method has been called. *)
Theorem invalid_request_never_reaches_handler
  (id : string) (t : Tool) (raw : gmap string value) (p : Param) (w : world) :
  lookup_tool registry id = Some t ->
  p ∈ parameters t ->
  p_required p = true ->
  (forall s, raw !! p_name p ≠ Some (VStr s)) ->
  exists errs,
    (Missing (p_name p) ∈ errs \/ WrongType (p_name p) ∈ errs) /\
    dispatch registry {| req_tool := id; req_params := raw |} w
    = (inr (inl (ValidationError errs)), w) /\
    call_tool registry {| req_tool := id; req_params := raw |} w
    = (inr (envelope (inl (ValidationError errs))), w) /\
    calls (snd (call_tool registry {| req_tool := id; req_params := raw |} w))
    = calls w.
Proof.
  intros Hl Hin Hreq Hbad.
  destruct (check_param_rejects p raw Hreq Hbad) as (e & He & Hkind).
  destruct (validate_rejects _ _ _ _ Hin He) as (errs & Hv & Herrs).
  exists errs.
  assert (dispatch registry {| req_tool := id; req_params := raw |} w
          = (inr (inl (ValidationError errs)), w)) as Hd.
  { unfold dispatch; cbn [req_tool req_params]. by rewrite Hl, Hv. }
  split; [destruct Hkind; subst; auto|].
  split; [done|].
  unfold call_tool, bind. rewrite Hd. done.
Qed.

(** C4: [_setup_tools] succeeds on the empty registry, and looking up the
    name of any of the functions it decorates returns the tool registered
    for it: the description, the parameter schema and the function given at
    registration. *)
Theorem registry_lookup_roundtrip (t : Tool) :
  t ∈ declared_tools ->
  fst (_setup_tools []) = inr tt /\
  lookup_tool registry (name t) = Some t.
Proof.
  intros Hin. split.
  - by rewrite setup_tools_ok.
  - by apply registry_lookup_declared.
Qed.

(** C5: the identifiers of the registry built at startup are pairwise
    distinct and stay so through any later registration attempts; an
    attempt under an identifier already registered fails with a
    RegistrationError and leaves the registry, and with it the existing
    entry, as it was. *)
Theorem registry_identifiers_unique :
  fst (_setup_tools []) = inr tt /\
  NoDup registry.*1 /\
  (forall ts : list Tool, NoDup (register_each ts registry).*1) /\
  (forall (reg : list (string * Tool)) (t old : Tool),
     lookup_tool reg (name t) = Some old ->
     register t reg = (inl (mkRegistrationError (name t)), reg) /\
     lookup_tool (snd (register t reg)) (name t) = Some old).
Proof.
  split; [by rewrite setup_tools_ok|].
  split; [apply registry_NoDup|].
  split; [intros ts; apply register_each_NoDup, registry_NoDup|].
  intros reg t old Hold.
  destruct (register_cases t reg) as [[_ Hr]|[Hfresh _]].
  - rewrite Hr. by split.
  - apply lookup_tool_None in Hfresh. congruence.
Qed.

(** C6: every call returns a response envelope and never an exception: a
    success carries the complete list the facade returned, and every
    failure (unknown tool, validation failure, handler failure) is one
    text block describing it, flagged as an error; a batch of requests
    yields one envelope per request, whatever failed before. *)
Theorem every_call_returns_an_envelope :
  (forall (req : InvocationRequest) (w : world),
     exists r w',
       dispatch registry req w = (inr r, w') /\
       call_tool registry req w = (inr (envelope r), w') /\
       match r with
       | inr items =>
           isError (envelope r) = false /\
           content (envelope r) = items /\
           exists h args, fst (run_handler h args (backend w)) = inr items
       | inl f =>
           isError (envelope r) = true /\
           content (envelope r) = [ {| text := describe f |} ]
       end) /\
  (forall (reqs : list InvocationRequest) (w : world),
     exists resps w',
       serve registry reqs w = (inr resps, w') /\
       length resps = length reqs).
Proof.
  assert (forall req w, exists r w',
             dispatch registry req w = (inr r, w') /\
             match r with
             | inr items =>
                 exists h args, fst (run_handler h args (backend w)) = inr items
             | inl _ => True
             end) as Hdispatch.
  { intros [id raw] w. unfold dispatch; cbn [req_tool req_params].
    destruct (lookup_tool registry id) as [t|] eqn:Hl;
      [|by eexists (inl _), w].
    destruct (validate (parameters t) raw) as [errs|args];
      [by eexists (inl _), w|].
    unfold try_except, bind, ret.
    destruct (registered_fn_total id t args w Hl) as [->|[h ->]].
    - by eexists (inl _), w.
    - unfold invoke.
      destruct (run_handler h args (backend w)) as [[msg|items] b'] eqn:Hrun.
      + by eexists (inl _), _.
      + eexists (inr items), _. split; [done|].
        exists h, args. by rewrite Hrun. }
  assert (forall req w, exists resp w',
             call_tool registry req w = (inr resp, w')) as Hcall.
  { intros req w. destruct (Hdispatch req w) as (r & w' & Hd & _).
    exists (envelope r), w'. unfold call_tool, bind. by rewrite Hd. }
  split.
  - intros req w. destruct (Hdispatch req w) as (r & w' & Hd & Hr).
    exists r, w'. split; [done|]. split.
    + unfold call_tool, bind. by rewrite Hd.
    + destruct r as [f|items]; simpl; auto.
  - induction reqs as [|req reqs IH]; intros w; simpl.
    + by exists [], w.
    + destruct (Hcall req w) as (resp & w1 & H1).
      destruct (IH w1) as (resps & w2 & H2 & Hlen).
      exists (resp :: resps), w2. unfold bind, ret.
      rewrite H1, H2. simpl. by rewrite Hlen.
Qed.

(** ** The event loop *)

Lemma request_steps_frame p evs :
  stdout (request_steps p evs) = stdout p /\
  stderr (request_steps p evs) = stderr p /\
  logged (request_steps p evs) = logged p /\
  on_sigint (request_steps p evs) = on_sigint p /\
  on_sigterm (request_steps p evs) = on_sigterm p.
Proof.
  unfold request_steps. revert p.
  induction evs as [|ev evs IH]; intros p; simpl; [done|].
  destruct (IH (request_step p ev)) as (-> & -> & -> & -> & ->).
  destruct ev as [id|id|s|e]; simpl; try done.
  by case_decide.
Qed.

(** The requests accepted and completed depend on the events alone, not on
    what was printed, logged or installed meanwhile. *)
Lemma request_steps_requests p q evs :
  in_flight p = in_flight q -> completed p = completed q ->
  in_flight (request_steps p evs) = in_flight (request_steps q evs) /\
  completed (request_steps p evs) = completed (request_steps q evs).
Proof.
  unfold request_steps. revert p q.
  induction evs as [|ev evs IH]; intros p q Hi Hc; simpl; [done|].
  apply IH; destruct ev as [id|id|s|e]; simpl; try congruence.
  - rewrite Hi. by case_decide.
  - rewrite Hi. case_decide; simpl; congruence.
Qed.

Lemma run_stdio_async_requests pre rest p :
  forallb is_request_event pre = true ->
  run_stdio_async (pre ++ rest) p = run_stdio_async rest (request_steps p pre).
Proof.
  unfold request_steps. revert p.
  induction pre as [|ev pre IH]; intros p Hpre; simpl in *; [done|].
  apply andb_prop in Hpre as [Hev Hpre].
  destruct ev as [id|id|s|e]; try discriminate; by rewrite IH.
Qed.

(** Once [start] has run its first lines, a delivered signal runs
    [signal_handler], whichever of the two it is. *)
Lemma deliver_started s p evs :
  deliver s (request_steps (started p) evs) =
  (Raised (SystemExit 0),
   log_record INFO "Received signal to shutdown..."
     (request_steps (started p) evs)).
Proof.
  unfold deliver.
  destruct (request_steps_frame (started p) evs) as (_ & _ & _ & Hi & Ht).
  assert (disposition_of s (request_steps (started p) evs)
          = signal_handler_installed) as ->.
  { destruct s; simpl; [by rewrite Hi | by rewrite Ht]. }
  reflexivity.
Qed.

Lemma start_on_signal self pre s post p :
  forallb is_request_event pre = true ->
  start self (pre ++ Deliver s :: post) p =
  (Raised (SystemExit 0),
   log_record INFO "Received signal to shutdown..."
     (request_steps (started p) pre)).
Proof.
  intros Hpre. unfold start, pbind, signal_signal, logger_info, except_Exception.
  fold (started p).
  rewrite (run_stdio_async_requests _ _ _ Hpre). simpl.
  unfold pbind. by rewrite deliver_started.
Qed.

Lemma start_on_fault self pre msg post p :
  forallb is_request_event pre = true ->
  start self (pre ++ Fault (PyException msg) :: post) p =
  (Raised (SystemExit 1),
   log_record ERROR ("Server error: " +:+ msg)
     (request_steps (started p) pre)).
Proof.
  intros Hpre. unfold start, pbind, signal_signal, logger_info, except_Exception.
  fold (started p).
  by rewrite (run_stdio_async_requests _ _ _ Hpre).
Qed.

(** ** The main module *)

Lemma init_succeeds config_path p :
  init_components config_path = None ->
  __init__ config_path p = (Returned {| mcp := registry |}, p).
Proof.
  intros Hinit. unfold __init__. rewrite Hinit, setup_tools_ok.
  by rewrite registry_entries.
Qed.

Lemma truthy_config v :
  truthy v = true -> exists config_path, v = Some config_path.
Proof. destruct v as [[|a v]|]; simpl; intros H; try discriminate; eauto. Qed.

(** The main module when the configuration is set and the constructor
    succeeds: what [start] does decides the outcome. *)
Lemma __main___started environ events p :
  truthy (environ "PROXMOX_MCP_CONFIG") = true ->
  init_components (default "" (environ "PROXMOX_MCP_CONFIG")) = None ->
  __main__ environ events p =
  match start {| mcp := registry |} events p with
  | (Raised KeyboardInterrupt, p') =>
      (Raised (SystemExit 0),
       write_stdout (String "010"%char "Shutting down gracefully...") p')
  | (Raised (PyException msg), p') =>
      (Raised (SystemExit 1), write_stdout ("Error: " +:+ msg) p')
  | r => r
  end.
Proof.
  intros Hset Hinit. unfold __main__. rewrite Hset. simpl negb. cbn iota.
  unfold pbind at 1. unfold pret at 1.
  unfold except_KeyboardInterrupt_Exception, pbind at 1.
  rewrite (init_succeeds _ _ Hinit).
  destruct (start {| mcp := registry |} events p) as [[[]|[msg| |code]|s] p'];
    reflexivity.
Qed.

(** ** What [start] does, by the event that ends the loop *)

Lemma events_split events :
  forallb is_request_event events = true \/
  exists pre ev post,
    events = pre ++ ev :: post /\
    forallb is_request_event pre = true /\
    is_request_event ev = false.
Proof.
  induction events as [|ev events IH]; [by left|].
  destruct (is_request_event ev) eqn:Hev.
  - destruct IH as [Hall|(pre & e & post & -> & Hpre & He)].
    + left. simpl. by rewrite Hev, Hall.
    + right. exists (ev :: pre), e, post. simpl. by rewrite Hev, Hpre.
  - right. by exists [], ev, events.
Qed.

Lemma start_on_end_of_input self events p :
  forallb is_request_event events = true ->
  start self events p = (Returned tt, request_steps (started p) events).
Proof.
  intros Hall. unfold start, pbind, signal_signal, logger_info, except_Exception.
  fold (started p).
  rewrite <- (app_nil_r events) at 1.
  by rewrite (run_stdio_async_requests _ _ _ Hall).
Qed.

Lemma start_on_interrupt self pre post p :
  forallb is_request_event pre = true ->
  start self (pre ++ Fault KeyboardInterrupt :: post) p =
  (Raised KeyboardInterrupt, request_steps (started p) pre).
Proof.
  intros Hpre. unfold start, pbind, signal_signal, logger_info, except_Exception.
  fold (started p).
  by rewrite (run_stdio_async_requests _ _ _ Hpre).
Qed.

Lemma start_on_system_exit self pre code post p :
  forallb is_request_event pre = true ->
  start self (pre ++ Fault (SystemExit code) :: post) p =
  (Raised (SystemExit code), request_steps (started p) pre).
Proof.
  intros Hpre. unfold start, pbind, signal_signal, logger_info, except_Exception.
  fold (started p).
  by rewrite (run_stdio_async_requests _ _ _ Hpre).
Qed.

(** What [start] does is decided by the first event that is not a request
    event. *)
Lemma start_cases self events p :
  exists pre,
    forallb is_request_event pre = true /\
    (start self events p
     = (Returned tt, request_steps (started p) pre) \/
     start self events p
     = (Raised (SystemExit 0),
        log_record INFO "Received signal to shutdown..."
          (request_steps (started p) pre)) \/
     (exists msg,
        start self events p
        = (Raised (SystemExit 1),
           log_record ERROR ("Server error: " +:+ msg)
             (request_steps (started p) pre))) \/
     start self events p
     = (Raised KeyboardInterrupt, request_steps (started p) pre) \/
     (exists code,
        start self events p
        = (Raised (SystemExit code), request_steps (started p) pre))).
Proof.
  destruct (events_split events) as [Hall|(pre & ev & post & -> & Hpre & Hev)].
  - exists events. split; [done|]. left. by apply start_on_end_of_input.
  - exists pre. split; [done|].
    destruct ev as [id|id|s|[msg| |code]]; try discriminate.
    + right; left. by apply start_on_signal.
    + right; right; left. exists msg. by apply start_on_fault.
    + right; right; right; left. by apply start_on_interrupt.
    + right; right; right; right. exists code. by apply start_on_system_exit.
Qed.

Lemma started_frame p evs :
  stdout (request_steps (started p) evs) = stdout p /\
  on_sigint (request_steps (started p) evs) = signal_handler_installed /\
  on_sigterm (request_steps (started p) evs) = signal_handler_installed.
Proof.
  destruct (request_steps_frame (started p) evs) as (-> & _ & _ & -> & ->).
  done.
Qed.

Lemma started_overrides s d p : started (set_disposition s d p) = started p.
Proof. by destruct s. Qed.

Lemma started_logged p evs :
  logged (request_steps (started p) evs)
  = logged p ++ [(INFO, "Starting MCP server...")].
Proof.
  by destruct (request_steps_frame (started p) evs) as (_ & _ & -> & _).
Qed.


(** ** The process life cycle *)

(** C7 (amended): when PROXMOX_MCP_CONFIG is unset the program prints its
    diagnostic with [print], that is on standard output, and exits with
    status 1; the constructor has not run and no event has been looked at,
    so no request is served, and standard error is left as it was. *)
Theorem missing_config_exits_before_serving
  (environ : string -> option string) (events : list event) (p : proc) :
  environ "PROXMOX_MCP_CONFIG" = None ->
  run environ events p =
  (Exited 1,
   write_stdout "PROXMOX_MCP_CONFIG environment variable must be set" p) /\
  stderr (snd (run environ events p)) = stderr p /\
  in_flight (snd (run environ events p)) = in_flight p /\
  completed (snd (run environ events p)) = completed p.
Proof.
  intros Hunset.
  assert (run environ events p =
          (Exited 1,
           write_stdout "PROXMOX_MCP_CONFIG environment variable must be set"
             p)) as Hrun.
  { unfold run, __main__. rewrite Hunset. reflexivity. }
  rewrite Hrun. by repeat split.
Qed.

(** C8 (amended): with the configuration set, once the constructor has
    succeeded and [start] has installed its handler, SIGINT and SIGTERM end
    the program in the same way: the handler logs that a shutdown signal
    was received and the process exits with status 0, and the whole run is
    the same for the two signals.  An exception of class [Exception]
    raised by the constructor is printed by the main module and the process
    exits with status 1; a [KeyboardInterrupt] raised by the constructor is
    caught by its own clause and the process exits with status 0. *)
Theorem termination_signals_exit_zero
  (environ : string -> option string) (pre post : list event) (p : proc) :
  truthy (environ "PROXMOX_MCP_CONFIG") = true ->
  (init_components (default "" (environ "PROXMOX_MCP_CONFIG")) = None ->
   forallb is_request_event pre = true ->
   forallb is_request_event post = true ->
   (forall s : signal,
      fst (run environ (pre ++ Deliver s :: post) p) = Exited 0 /\
      logged (snd (run environ (pre ++ Deliver s :: post) p))
      = logged p ++ [(INFO, "Starting MCP server...");
                     (INFO, "Received signal to shutdown...")]) /\
   run environ (pre ++ Deliver SIGINT :: post) p
   = run environ (pre ++ Deliver SIGTERM :: post) p) /\
  (forall (msg : string) (events : list event),
     init_components (default "" (environ "PROXMOX_MCP_CONFIG"))
     = Some (PyException msg) ->
     fst (run environ events p) = Exited 1 /\
     stdout (snd (run environ events p)) = stdout p ++ ["Error: " +:+ msg] /\
     logged (snd (run environ events p)) = logged p) /\
  (forall events : list event,
     init_components (default "" (environ "PROXMOX_MCP_CONFIG"))
     = Some KeyboardInterrupt ->
     fst (run environ events p) = Exited 0 /\
     stdout (snd (run environ events p))
     = stdout p ++ [String "010"%char "Shutting down gracefully..."]).
Proof.
  intros Hset. split; [|split].
  - intros Hinit Hpre _.
    assert (forall s, run environ (pre ++ Deliver s :: post) p
                      = (Exited 0,
                         log_record INFO "Received signal to shutdown..."
                           (request_steps (started p) pre))) as Hrun.
    { intros s. unfold run. rewrite (__main___started _ _ _ Hset Hinit).
      by rewrite (start_on_signal _ _ _ _ _ Hpre). }
    split; [|by rewrite !Hrun].
    intros s. rewrite Hrun. cbn [fst snd log_record logged].
    split; [done|]. by rewrite started_logged, <- app_assoc.
  - intros msg events Hinit. unfold run, __main__.
    rewrite Hset. simpl negb. cbn iota.
    unfold pbind at 1. unfold pret at 1.
    unfold except_KeyboardInterrupt_Exception, pbind at 1.
    unfold __init__. by rewrite Hinit.
  - intros events Hinit. unfold run, __main__.
    rewrite Hset. simpl negb. cbn iota.
    unfold pbind at 1. unfold pret at 1.
    unfold except_KeyboardInterrupt_Exception, pbind at 1.
    unfold __init__. by rewrite Hinit.
Qed.

(** C10 (amended): an exception of class [Exception] that escapes the
    event loop while the server runs, after any number of request events,
    is caught in [start], logged as a server error, and [start] exits with
    status 1: the process ends with that status and no request is accepted
    or completed after the exception.  A [KeyboardInterrupt] or a
    [SystemExit] that escapes the loop is not caught in [start]. *)
Theorem escaping_exception_exits_one
  (environ : string -> option string) (pre post : list event) (msg : string)
  (p : proc) :
  truthy (environ "PROXMOX_MCP_CONFIG") = true ->
  init_components (default "" (environ "PROXMOX_MCP_CONFIG")) = None ->
  forallb is_request_event pre = true ->
  forallb is_request_event post = true ->
  fst (start {| mcp := registry |} (pre ++ Fault (PyException msg) :: post) p)
  = Raised (SystemExit 1) /\
  fst (run environ (pre ++ Fault (PyException msg) :: post) p) = Exited 1 /\
  logged (snd (run environ (pre ++ Fault (PyException msg) :: post) p))
  = logged p ++ [(INFO, "Starting MCP server...");
                 (ERROR, "Server error: " +:+ msg)] /\
  in_flight (snd (run environ (pre ++ Fault (PyException msg) :: post) p))
  = in_flight (request_steps p pre) /\
  completed (snd (run environ (pre ++ Fault (PyException msg) :: post) p))
  = completed (request_steps p pre) /\
  fst (start {| mcp := registry |} (pre ++ Fault KeyboardInterrupt :: post) p)
  = Raised KeyboardInterrupt /\
  (forall code : Z,
     fst (start {| mcp := registry |}
            (pre ++ Fault (SystemExit code) :: post) p)
     = Raised (SystemExit code)).
Proof.
  intros Hset Hinit Hpre _.
  assert (run environ (pre ++ Fault (PyException msg) :: post) p
          = (Exited 1,
             log_record ERROR ("Server error: " +:+ msg)
               (request_steps (started p) pre))) as Hrun.
  { unfold run. rewrite (__main___started _ _ _ Hset Hinit).
    by rewrite (start_on_fault _ _ _ _ _ Hpre). }
  rewrite Hrun. cbn [fst snd log_record logged in_flight completed].
  split; [by rewrite (start_on_fault _ _ _ _ _ Hpre)|].
  split; [done|].
  split; [by rewrite started_logged, <- app_assoc|].
  split; [by apply request_steps_requests|].
  split; [by apply request_steps_requests|].
  split; [by rewrite (start_on_interrupt _ _ _ _ Hpre)|].
  intros code. by rewrite (start_on_system_exit _ _ _ _ _ Hpre).
Qed.

(** ** Further properties of [start] and the main module *)

(** X1: an empty PROXMOX_MCP_CONFIG is treated as a missing one: [not
    config_path] holds for the empty string, so the program prints the same
    diagnostic on standard output and exits with status 1 before the
    constructor runs or any event is looked at. *)
Theorem empty_config_exits_before_serving
  (environ : string -> option string) (events : list event) (p : proc) :
  environ "PROXMOX_MCP_CONFIG" = Some "" ->
  run environ events p =
  (Exited 1,
   write_stdout "PROXMOX_MCP_CONFIG environment variable must be set" p).
Proof.
  intros Hempty. unfold run, __main__. rewrite Hempty. reflexivity.
Qed.

(** X2: a [KeyboardInterrupt] is not caught by the [except Exception] of
    [start]; whether it is raised while the constructor runs or escapes
    the event loop, the main module prints its shutdown line on standard
    output and exits with status 0, and no server error is logged. *)
Theorem keyboard_interrupt_exits_zero
  (environ : string -> option string) (pre post : list event) (p : proc) :
  truthy (environ "PROXMOX_MCP_CONFIG") = true ->
  (init_components (default "" (environ "PROXMOX_MCP_CONFIG"))
   = Some KeyboardInterrupt ->
   forall events : list event,
     run environ events p =
     (Exited 0,
      write_stdout (String "010"%char "Shutting down gracefully...") p)) /\
  (init_components (default "" (environ "PROXMOX_MCP_CONFIG")) = None ->
   forallb is_request_event pre = true ->
   run environ (pre ++ Fault KeyboardInterrupt :: post) p =
   (Exited 0,
    write_stdout (String "010"%char "Shutting down gracefully...")
      (request_steps (started p) pre))).
Proof.
  intros Hset. split.
  - intros Hinit events. unfold run, __main__.
    rewrite Hset. simpl negb. cbn iota.
    unfold pbind at 1. unfold pret at 1.
    unfold except_KeyboardInterrupt_Exception, pbind at 1.
    unfold __init__. by rewrite Hinit.
  - intros Hinit Hpre. unfold run.
    rewrite (__main___started _ _ _ Hset Hinit).
    by rewrite (start_on_interrupt _ _ _ _ Hpre).
Qed.


(** X4: when the event loop reaches the end of its input, [start] returns
    and the program ends with status 0: every request event has been
    processed and the start of the server is the only record logged. *)
Theorem end_of_input_exits_zero_after_all_requests
  (environ : string -> option string) (events : list event) (p : proc) :
  truthy (environ "PROXMOX_MCP_CONFIG") = true ->
  init_components (default "" (environ "PROXMOX_MCP_CONFIG")) = None ->
  forallb is_request_event events = true ->
  fst (start {| mcp := registry |} events p) = Returned tt /\
  fst (run environ events p) = Exited 0 /\
  logged (snd (run environ events p))
  = logged p ++ [(INFO, "Starting MCP server...")] /\
  in_flight (snd (run environ events p)) = in_flight (request_steps p events) /\
  completed (snd (run environ events p)) = completed (request_steps p events).
Proof.
  intros Hset Hinit Hall.
  assert (run environ events p
          = (Exited 0, request_steps (started p) events)) as Hrun.
  { unfold run. rewrite (__main___started _ _ _ Hset Hinit).
    by rewrite (start_on_end_of_input _ _ _ Hall). }
  rewrite Hrun. cbn [fst snd].
  split; [by rewrite (start_on_end_of_input _ _ _ Hall)|].
  split; [done|].
  split; [by rewrite started_logged|].
  split; by apply request_steps_requests.
Qed.

(** X5: [start] never lets an exception of class [Exception] escape and is
    never killed by a signal: whatever the events, it returns, or raises
    [SystemExit], or raises [KeyboardInterrupt]. *)
Theorem start_outcomes
  (self : ProxmoxMCPServer) (events : list event) (p : proc) :
  fst (start self events p) = Returned tt \/
  fst (start self events p) = Raised KeyboardInterrupt \/
  exists code : Z, fst (start self events p) = Raised (SystemExit code).
Proof.
  destruct (start_cases self events p)
    as (pre & _ & [-> | [-> | [[msg ->] | [-> | [code ->]]]]]); simpl; eauto.
Qed.

(** X6: however [start] ends, both SIGINT and SIGTERM are left bound to its
    handler, and what it does is independent of the handlers that were
    installed before it ran. *)
Theorem start_installs_both_handlers
  (self : ProxmoxMCPServer) (events : list event) (p : proc) :
  on_sigint (snd (start self events p)) = signal_handler_installed /\
  on_sigterm (snd (start self events p)) = signal_handler_installed /\
  (forall (s : signal) (d : disposition),
     start self events (set_disposition s d p) = start self events p).
Proof.
  split; [|split].
  - destruct (start_cases self events p)
      as (pre & _ & [-> | [-> | [[msg ->] | [-> | [code ->]]]]]);
      cbn [snd log_record on_sigint];
      by destruct (started_frame p pre) as (_ & -> & _).
  - destruct (start_cases self events p)
      as (pre & _ & [-> | [-> | [[msg ->] | [-> | [code ->]]]]]);
      cbn [snd log_record on_sigterm];
      by destruct (started_frame p pre) as (_ & _ & ->).
  - intros s d. unfold start, pbind, signal_signal, logger_info.
    unfold except_Exception.
    fold (started (set_disposition s d p)). fold (started p).
    by rewrite started_overrides.
Qed.

(** ** Further properties of the wrappers *)

Lemma declared_fn_invokes t args :
  t ∈ declared_tools ->
  length args = length (parameters t) ->
  exists h, delegation !! name t = Some h /\ fn t args = invoke h args.
Proof.
  intros Hin Hlen.
  declared_cases Hin; simpl in *;
    destruct args as [|a1 [|a2 [|a3 [|a4 args]]]]; try discriminate;
    eexists; (split; [by vm_compute | reflexivity]).
Qed.

(** X8: the wrappers contain no error handling: when the facade method
    raises, the wrapper raises the same exception with the same message,
    after the single facade call, and the hypervisor state is the one the
    facade left. *)
Theorem wrapper_propagates_facade_exception
  (t : Tool) (args : list string) (w : world) (h : handler) (msg : string)
  (b' : Backend) :
  t ∈ declared_tools ->
  length args = length (parameters t) ->
  delegation !! name t = Some h ->
  run_handler h args (backend w) = (inl msg, b') ->
  fn t args w =
  (inl (PyException msg),
   {| backend := b'; calls := calls w ++ [(h, args)] |}).
Proof.
  intros Hin Hlen Hd Hrun.
  destruct (declared_fn_invokes t args Hin Hlen) as (h' & Hd' & ->).
  assert (h' = h) as -> by congruence.
  unfold invoke. by rewrite Hrun.
Qed.

(** X12: when the constructor raises, [start] is never entered: no signal
    handler is installed, nothing is logged and no request is accepted;
    the exit status is 1 for an exception of class [Exception], 0 for a
    keyboard interrupt, and the status of its code for a [SystemExit]. *)
Theorem failed_constructor_never_starts
  (environ : string -> option string) (events : list event) (e : exn)
  (p : proc) :
  truthy (environ "PROXMOX_MCP_CONFIG") = true ->
  init_components (default "" (environ "PROXMOX_MCP_CONFIG")) = Some e ->
  fst (run environ events p)
  = match e with
    | PyException _ => Exited 1
    | KeyboardInterrupt => Exited 0
    | SystemExit code => Exited (exit_code code)
    end /\
  on_sigint (snd (run environ events p)) = on_sigint p /\
  on_sigterm (snd (run environ events p)) = on_sigterm p /\
  logged (snd (run environ events p)) = logged p /\
  in_flight (snd (run environ events p)) = in_flight p /\
  completed (snd (run environ events p)) = completed p.
Proof.
  intros Hset Hinit. unfold run, __main__.
  rewrite Hset. simpl negb. cbn iota.
  unfold pbind at 1. unfold pret at 1.
  unfold except_KeyboardInterrupt_Exception, pbind at 1.
  unfold __init__. rewrite Hinit.
  by destruct e as [msg| |code].
Qed.

End Server.

(** * The statements on the sample deployment *)

Abbreviation sample_registry := (registry nat sample_run_handler sample_defs sample_arity_error).
Abbreviation sample_world := (Build_world nat 0 []).
Abbreviation sample_run :=
  (run nat sample_run_handler sample_defs sample_arity_error sample_init_components).
Abbreviation sample_execute_vm_command :=
  (execute_vm_command_tool nat sample_run_handler sample_defs sample_arity_error).
Abbreviation sample_get_node_status :=
  (get_node_status_tool nat sample_run_handler sample_defs sample_arity_error).

(** [execute_vm_command] on a complete request: the facade is unreachable;
    it has been called once, on the three supplied strings, and the error
    envelope reports that call. *)
Lemma dispatch_invokes_handler_once_witness :
  lookup_tool nat sample_registry "execute_vm_command"
  = Some sample_execute_vm_command /\
  supplied (parameters nat sample_execute_vm_command)
    {[ "node" := VStr "pve1"; "vmid" := VStr "100";
       "command" := VStr "uptime" ]}
    ["pve1"; "100"; "uptime"] /\
  exists h,
    delegation !! "execute_vm_command" = Some h /\
    fn nat sample_execute_vm_command ["pve1"; "100"; "uptime"]
    = invoke nat sample_run_handler h ["pve1"; "100"; "uptime"] /\
    calls nat
      (snd (call_tool nat sample_registry
              {| req_tool := "execute_vm_command";
                 req_params :=
                   {[ "node" := VStr "pve1"; "vmid" := VStr "100";
                      "command" := VStr "uptime" ]} |}
              sample_world))
    = calls nat sample_world ++ [(h, ["pve1"; "100"; "uptime"])] /\
    backend nat
      (snd (call_tool nat sample_registry
              {| req_tool := "execute_vm_command";
                 req_params :=
                   {[ "node" := VStr "pve1"; "vmid" := VStr "100";
                      "command" := VStr "uptime" ]} |}
              sample_world))
    = snd (sample_run_handler h ["pve1"; "100"; "uptime"]
             (backend nat sample_world)) /\
    fst (call_tool nat sample_registry
           {| req_tool := "execute_vm_command";
              req_params :=
                {[ "node" := VStr "pve1"; "vmid" := VStr "100";
                   "command" := VStr "uptime" ]} |}
           sample_world)
    = inr (envelope
             match
               fst (sample_run_handler h ["pve1"; "100"; "uptime"]
                      (backend nat sample_world))
             with
             | inr items => inr items
             | inl msg => inl (HandlerError msg)
             end).
Proof.
  assert (lookup_tool nat sample_registry "execute_vm_command"
          = Some sample_execute_vm_command) as Hl by reflexivity.
  assert (supplied (parameters nat sample_execute_vm_command)
            {[ "node" := VStr "pve1"; "vmid" := VStr "100";
               "command" := VStr "uptime" ]}
            ["pve1"; "100"; "uptime"]) as Hs
    by (repeat constructor).
  split; [exact Hl|]. split; [exact Hs|].
  exact (dispatch_invokes_handler_once nat sample_run_handler sample_defs
           sample_arity_error _ _ _ _ sample_world Hl Hs).
Defined.

(** [get_node_status] on ["pve1"]: the two blocks of the facade, in order. *)
Lemma success_envelope_is_handler_result_witness :
  lookup_tool nat sample_registry "get_node_status"
  = Some sample_get_node_status /\
  supplied (parameters nat sample_get_node_status)
    {[ "node" := VStr "pve1" ]} ["pve1"] /\
  delegation !! "get_node_status" = Some NodeTools_get_node_status /\
  sample_run_handler NodeTools_get_node_status ["pve1"] 0
  = (inr [ {| text := "pve1" |}; {| text := "ok" |} ], 1) /\
  fst (fn nat sample_get_node_status ["pve1"] sample_world)
  = inr [ {| text := "pve1" |}; {| text := "ok" |} ] /\
  fst (call_tool nat sample_registry
         {| req_tool := "get_node_status";
            req_params := {[ "node" := VStr "pve1" ]} |}
         sample_world)
  = inr {| isError := false;
           content := [ {| text := "pve1" |}; {| text := "ok" |} ] |} /\
  length (content (envelope (inr [ {| text := "pve1" |}; {| text := "ok" |} ])))
  = length [ {| text := "pve1" |}; {| text := "ok" |} ].
Proof.
  assert (lookup_tool nat sample_registry "get_node_status"
          = Some sample_get_node_status) as Hl by reflexivity.
  assert (supplied (parameters nat sample_get_node_status)
            {[ "node" := VStr "pve1" ]} ["pve1"]) as Hs
    by (repeat constructor).
  assert (delegation !! "get_node_status" = Some NodeTools_get_node_status)
    as Hd by (vm_compute; reflexivity).
  assert (sample_run_handler NodeTools_get_node_status ["pve1"] 0
          = (inr [ {| text := "pve1" |}; {| text := "ok" |} ], 1)) as Hrun
    by reflexivity.
  split; [exact Hl|]. split; [exact Hs|]. split; [exact Hd|].
  split; [exact Hrun|].
  exact (success_envelope_is_handler_result nat sample_run_handler sample_defs sample_arity_error
           _ _ _ _ sample_world _ _ _ Hl Hs Hd Hrun).
Defined.

(** [execute_vm_command] without its [command]: a ValidationError, and the
    facade has not been called. *)
Lemma invalid_request_never_reaches_handler_witness :
  lookup_tool nat sample_registry "execute_vm_command"
  = Some sample_execute_vm_command /\
  str_param "command"
    "Shell command to run (e.g. 'uname -a', 'systemctl status nginx')"
  ∈ parameters nat sample_execute_vm_command /\
  exists errs,
    (Missing "command" ∈ errs \/ WrongType "command" ∈ errs) /\
    dispatch nat sample_registry
      {| req_tool := "execute_vm_command";
         req_params := {[ "node" := VStr "pve1"; "vmid" := VInt 100 ]} |}
      sample_world
    = (inr (inl (ValidationError errs)), sample_world) /\
    call_tool nat sample_registry
      {| req_tool := "execute_vm_command";
         req_params := {[ "node" := VStr "pve1"; "vmid" := VInt 100 ]} |}
      sample_world
    = (inr (envelope (inl (ValidationError errs))), sample_world) /\
    calls nat
      (snd (call_tool nat sample_registry
              {| req_tool := "execute_vm_command";
                 req_params :=
                   {[ "node" := VStr "pve1"; "vmid" := VInt 100 ]} |}
              sample_world))
    = calls nat sample_world.
Proof.
  assert (lookup_tool nat sample_registry "execute_vm_command"
          = Some sample_execute_vm_command) as Hl by reflexivity.
  assert (str_param "command"
            "Shell command to run (e.g. 'uname -a', 'systemctl status nginx')"
          ∈ parameters nat sample_execute_vm_command) as Hin
    by (simpl; repeat constructor).
  split; [exact Hl|]. split; [exact Hin|].
  apply (invalid_request_never_reaches_handler nat sample_run_handler
           sample_defs sample_arity_error _ _ _ _ sample_world Hl Hin).
  - reflexivity.
  - intros s. vm_compute. discriminate.
Defined.

(** The round trip at [execute_vm_command]. *)
Lemma registry_lookup_roundtrip_witness :
  sample_execute_vm_command
  ∈ declared_tools nat sample_run_handler sample_defs sample_arity_error /\
  fst (_setup_tools nat sample_run_handler sample_defs sample_arity_error []) = inr tt /\
  lookup_tool nat sample_registry (name nat sample_execute_vm_command)
  = Some sample_execute_vm_command.
Proof.
  assert (sample_execute_vm_command
          ∈ declared_tools nat sample_run_handler sample_defs sample_arity_error) as Hin
    by (unfold declared_tools; repeat constructor).
  split; [exact Hin|].
  exact (registry_lookup_roundtrip nat sample_run_handler sample_defs sample_arity_error _ Hin).
Defined.

(** C7, as stated, fails on the program started without the variable: the
    diagnostic is on standard output and standard error is empty. *)
Lemma missing_config_diagnostic_on_stdout :
  fst (sample_run environ_unset [] boot) = Exited 1 /\
  stdout (snd (sample_run environ_unset [] boot))
  = ["PROXMOX_MCP_CONFIG environment variable must be set"] /\
  stderr (snd (sample_run environ_unset [] boot)) = [].
Proof. by vm_compute. Qed.

Lemma missing_config_exits_before_serving_witness :
  environ_unset "PROXMOX_MCP_CONFIG" = None /\
  sample_run environ_unset [Accept 1; Complete 1] boot =
  (Exited 1,
   write_stdout "PROXMOX_MCP_CONFIG environment variable must be set" boot) /\
  stderr (snd (sample_run environ_unset [Accept 1; Complete 1] boot))
  = stderr boot /\
  in_flight (snd (sample_run environ_unset [Accept 1; Complete 1] boot))
  = in_flight boot /\
  completed (snd (sample_run environ_unset [Accept 1; Complete 1] boot))
  = completed boot.
Proof.
  split; [reflexivity|].
  exact (missing_config_exits_before_serving nat sample_run_handler
           sample_defs sample_arity_error sample_init_components environ_unset
           [Accept 1; Complete 1] boot eq_refl).
Defined.

(** C8, as stated, fails on a constructor interrupted from the keyboard:
    the exception raised during startup ends the process with status 0,
    not 1. *)
Lemma startup_keyboard_interrupt_exits_zero :
  sample_init_components
    (default "" (environ_set "slow.json" "PROXMOX_MCP_CONFIG"))
  = Some KeyboardInterrupt /\
  fst (sample_run (environ_set "slow.json") [] boot) = Exited 0 /\
  stdout (snd (sample_run (environ_set "slow.json") [] boot))
  = [String "010"%char "Shutting down gracefully..."].
Proof. by vm_compute. Qed.

(** Both signals after two accepted requests, a constructor that fails on
    its configuration file, and one interrupted from the keyboard. *)
Lemma termination_signals_exit_zero_witness :
  truthy (environ_set "config.json" "PROXMOX_MCP_CONFIG") = true /\
  truthy (environ_set "missing.json" "PROXMOX_MCP_CONFIG") = true /\
  truthy (environ_set "slow.json" "PROXMOX_MCP_CONFIG") = true /\
  (forall s : signal,
     fst (sample_run (environ_set "config.json")
            ([Accept 1; Accept 2; Complete 1] ++ Deliver s :: [Complete 2])
            boot) = Exited 0 /\
     logged (snd (sample_run (environ_set "config.json")
                    ([Accept 1; Accept 2; Complete 1]
                     ++ Deliver s :: [Complete 2]) boot))
     = logged boot ++ [(INFO, "Starting MCP server...");
                       (INFO, "Received signal to shutdown...")]) /\
  sample_run (environ_set "config.json")
    ([Accept 1; Accept 2; Complete 1] ++ Deliver SIGINT :: [Complete 2]) boot
  = sample_run (environ_set "config.json")
      ([Accept 1; Accept 2; Complete 1] ++ Deliver SIGTERM :: [Complete 2])
      boot /\
  (fst (sample_run (environ_set "missing.json") [Accept 1] boot) = Exited 1 /\
   stdout (snd (sample_run (environ_set "missing.json") [Accept 1] boot))
   = stdout boot ++ ["Error: " +:+ "config file not found"] /\
   logged (snd (sample_run (environ_set "missing.json") [Accept 1] boot))
   = logged boot) /\
  (fst (sample_run (environ_set "slow.json") [Accept 1] boot) = Exited 0 /\
   stdout (snd (sample_run (environ_set "slow.json") [Accept 1] boot))
   = stdout boot ++ [String "010"%char "Shutting down gracefully..."]).
Proof.
  assert (truthy (environ_set "config.json" "PROXMOX_MCP_CONFIG") = true)
    as Hset by reflexivity.
  assert (truthy (environ_set "missing.json" "PROXMOX_MCP_CONFIG") = true)
    as Hmissing by reflexivity.
  assert (truthy (environ_set "slow.json" "PROXMOX_MCP_CONFIG") = true)
    as Hslow by reflexivity.
  split; [exact Hset|]. split; [exact Hmissing|]. split; [exact Hslow|].
  destruct (termination_signals_exit_zero nat sample_run_handler sample_defs
              sample_arity_error sample_init_components
              (environ_set "config.json")
              [Accept 1; Accept 2; Complete 1] [Complete 2] boot Hset)
    as [Hsignal _].
  destruct (Hsignal eq_refl eq_refl eq_refl) as [Heach Hsame].
  destruct (termination_signals_exit_zero nat sample_run_handler sample_defs
              sample_arity_error sample_init_components
              (environ_set "missing.json") [] [] boot Hmissing)
    as (_ & Hfail & _).
  destruct (termination_signals_exit_zero nat sample_run_handler sample_defs
              sample_arity_error sample_init_components
              (environ_set "slow.json") [] [] boot Hslow)
    as (_ & _ & Hinterrupt).
  split; [exact Heach|]. split; [exact Hsame|].
  split; [exact (Hfail "config file not found" [Accept 1] eq_refl)|].
  exact (Hinterrupt [Accept 1] eq_refl).
Defined.

(** C9: a request accepted before SIGTERM.  The handler logs the signal
    and the process exits with status 0 while the request is still in
    flight: it is never completed, as it is when no signal arrives. *)
Lemma signal_abandons_accepted_request :
  fst (sample_run (environ_set "config.json")
         [Accept 1; Deliver SIGTERM; Complete 1] boot) = Exited 0 /\
  logged (snd (sample_run (environ_set "config.json")
                 [Accept 1; Deliver SIGTERM; Complete 1] boot))
  = [(INFO, "Starting MCP server...");
     (INFO, "Received signal to shutdown...")] /\
  in_flight (snd (sample_run (environ_set "config.json")
                    [Accept 1; Deliver SIGTERM; Complete 1] boot)) = [1] /\
  completed (snd (sample_run (environ_set "config.json")
                    [Accept 1; Deliver SIGTERM; Complete 1] boot)) = [] /\
  completed (snd (sample_run (environ_set "config.json")
                    [Accept 1; Complete 1] boot)) = [1].
Proof. by vm_compute. Qed.

(** C10, as stated, fails on a [KeyboardInterrupt] that escapes the event
    loop: [start] does not catch it, no server error is logged, and the
    process exits with status 0. *)
Lemma escaping_keyboard_interrupt_not_caught :
  fst (start nat {| mcp := sample_registry |}
         [Accept 1; Fault KeyboardInterrupt] boot)
  = Raised KeyboardInterrupt /\
  fst (sample_run (environ_set "config.json")
         [Accept 1; Fault KeyboardInterrupt] boot) = Exited 0 /\
  logged (snd (sample_run (environ_set "config.json")
                 [Accept 1; Fault KeyboardInterrupt] boot))
  = [(INFO, "Starting MCP server...")].
Proof. by vm_compute. Qed.

(** A handler error that escapes the loop while one request is in flight. *)
Lemma escaping_exception_exits_one_witness :
  truthy (environ_set "config.json" "PROXMOX_MCP_CONFIG") = true /\
  sample_init_components
    (default "" (environ_set "config.json" "PROXMOX_MCP_CONFIG")) = None /\
  forallb is_request_event [Accept 1] = true /\
  forallb is_request_event [Accept 2] = true /\
  fst (start nat {| mcp := sample_registry |}
         ([Accept 1] ++ Fault (PyException "invalid message") :: [Accept 2])
         boot)
  = Raised (SystemExit 1) /\
  fst (sample_run (environ_set "config.json")
         ([Accept 1] ++ Fault (PyException "invalid message") :: [Accept 2])
         boot) = Exited 1 /\
  logged (snd (sample_run (environ_set "config.json")
                 ([Accept 1] ++ Fault (PyException "invalid message")
                  :: [Accept 2]) boot))
  = logged boot ++ [(INFO, "Starting MCP server...");
                    (ERROR, "Server error: " +:+ "invalid message")] /\
  in_flight (snd (sample_run (environ_set "config.json")
                    ([Accept 1] ++ Fault (PyException "invalid message")
                     :: [Accept 2]) boot))
  = in_flight (request_steps boot [Accept 1]) /\
  completed (snd (sample_run (environ_set "config.json")
                    ([Accept 1] ++ Fault (PyException "invalid message")
                     :: [Accept 2]) boot))
  = completed (request_steps boot [Accept 1]) /\
  fst (start nat {| mcp := sample_registry |}
         ([Accept 1] ++ Fault KeyboardInterrupt :: [Accept 2]) boot)
  = Raised KeyboardInterrupt /\
  (forall code : Z,
     fst (start nat {| mcp := sample_registry |}
            ([Accept 1] ++ Fault (SystemExit code) :: [Accept 2]) boot)
     = Raised (SystemExit code)).
Proof.
  split; [reflexivity|]. split; [reflexivity|]. split; [reflexivity|].
  split; [reflexivity|].
  exact (escaping_exception_exits_one nat sample_run_handler sample_defs
           sample_arity_error sample_init_components
           (environ_set "config.json")
           [Accept 1] [Accept 2] "invalid message" boot
           eq_refl eq_refl eq_refl eq_refl).
Defined.

(** ** Further evaluations on the sample deployment *)

(** The unreachable facade of [execute_vm_command] yields an error
    envelope of one block, and the request after it is served. *)
Example unreachable_then_next_request :
  serve nat sample_registry
    [ {| req_tool := "execute_vm_command";
         req_params :=
           {[ "node" := VStr "pve1"; "vmid" := VStr "100";
              "command" := VStr "uptime" ]} |};
      {| req_tool := "get_node_status";
         req_params := {[ "node" := VStr "pve1" ]} |} ]
    sample_world
  = (inr [ {| isError := true;
              content :=
                [ {| text := "Error executing tool: node unreachable" |} ] |};
           {| isError := false;
              content := [ {| text := "pve1" |}; {| text := "ok" |} ] |} ],
     {| backend := 2;
        calls := [ (VMTools_execute_command, ["pve1"; "100"; "uptime"]);
                   (NodeTools_get_node_status, ["pve1"]) ] |}).
Proof. by vm_compute. Qed.

(** A tool that was never registered. *)
Example unknown_tool_envelope :
  call_tool nat sample_registry
    {| req_tool := "reboot_node"; req_params := ∅ |} sample_world
  = (inr {| isError := true;
            content := [ {| text := "Unknown tool: reboot_node" |} ] |},
     sample_world).
Proof. by vm_compute. Qed.

(** A second registration under the name [get_nodes]. *)
Example duplicate_registration_rejected :
  register nat
    {| name := "get_nodes"; description := "another"; parameters := [];
       is_async := false;
       fn := call0 nat sample_arity_error "get_nodes"
               (get_vms nat sample_run_handler) |}
    sample_registry
  = (inl (mkRegistrationError "get_nodes"), sample_registry).
Proof. reflexivity. Qed.

(** Before [start] installs its handler the two signals differ: SIGINT
    raises [KeyboardInterrupt] and SIGTERM kills the process. *)
Example default_dispositions_differ :
  deliver SIGINT boot = (Raised KeyboardInterrupt, boot) /\
  deliver SIGTERM boot = (Killed SIGTERM, boot).
Proof. by split. Qed.

(** An empty PROXMOX_MCP_CONFIG is treated as an unset one. *)
Example empty_config_is_missing :
  sample_run (environ_set "") [Accept 1] boot
  = (Exited 1,
     write_stdout "PROXMOX_MCP_CONFIG environment variable must be set" boot).
Proof. by vm_compute. Qed.

(** ** The further properties on the sample deployment *)

Lemma empty_config_exits_before_serving_witness :
  environ_set "" "PROXMOX_MCP_CONFIG" = Some "" /\
  sample_run (environ_set "") [Accept 1; Complete 1] boot =
  (Exited 1,
   write_stdout "PROXMOX_MCP_CONFIG environment variable must be set" boot).
Proof.
  split; [reflexivity|].
  exact (empty_config_exits_before_serving nat sample_run_handler sample_defs sample_arity_error
           sample_init_components (environ_set "") [Accept 1; Complete 1]
           boot eq_refl).
Defined.

Lemma keyboard_interrupt_exits_zero_witness :
  truthy (environ_set "slow.json" "PROXMOX_MCP_CONFIG") = true /\
  truthy (environ_set "config.json" "PROXMOX_MCP_CONFIG") = true /\
  sample_run (environ_set "slow.json") [Accept 1] boot
  = (Exited 0,
     write_stdout (String "010"%char "Shutting down gracefully...") boot) /\
  sample_run (environ_set "config.json")
    ([Accept 1] ++ Fault KeyboardInterrupt :: [Complete 1]) boot
  = (Exited 0,
     write_stdout (String "010"%char "Shutting down gracefully...")
       (request_steps (started boot) [Accept 1])).
Proof.
  assert (truthy (environ_set "slow.json" "PROXMOX_MCP_CONFIG") = true)
    as Hslow by reflexivity.
  assert (truthy (environ_set "config.json" "PROXMOX_MCP_CONFIG") = true)
    as Hset by reflexivity.
  split; [exact Hslow|]. split; [exact Hset|].
  destruct (keyboard_interrupt_exits_zero nat sample_run_handler sample_defs sample_arity_error
              sample_init_components (environ_set "slow.json") [] [] boot
              Hslow) as [Hctor _].
  destruct (keyboard_interrupt_exits_zero nat sample_run_handler sample_defs sample_arity_error
              sample_init_components (environ_set "config.json")
              [Accept 1] [Complete 1] boot Hset) as [_ Hloop].
  split; [exact (Hctor eq_refl [Accept 1])|].
  exact (Hloop eq_refl eq_refl).
Defined.


Lemma end_of_input_exits_zero_after_all_requests_witness :
  truthy (environ_set "config.json" "PROXMOX_MCP_CONFIG") = true /\
  sample_init_components
    (default "" (environ_set "config.json" "PROXMOX_MCP_CONFIG")) = None /\
  forallb is_request_event [Accept 1; Accept 2; Complete 2; Complete 1]
  = true /\
  fst (start nat {| mcp := sample_registry |}
         [Accept 1; Accept 2; Complete 2; Complete 1] boot) = Returned tt /\
  fst (sample_run (environ_set "config.json")
         [Accept 1; Accept 2; Complete 2; Complete 1] boot) = Exited 0 /\
  logged (snd (sample_run (environ_set "config.json")
                 [Accept 1; Accept 2; Complete 2; Complete 1] boot))
  = logged boot ++ [(INFO, "Starting MCP server...")] /\
  in_flight (snd (sample_run (environ_set "config.json")
                    [Accept 1; Accept 2; Complete 2; Complete 1] boot))
  = in_flight (request_steps boot
                 [Accept 1; Accept 2; Complete 2; Complete 1]) /\
  completed (snd (sample_run (environ_set "config.json")
                    [Accept 1; Accept 2; Complete 2; Complete 1] boot))
  = completed (request_steps boot
                 [Accept 1; Accept 2; Complete 2; Complete 1]).
Proof.
  split; [reflexivity|]. split; [reflexivity|]. split; [reflexivity|].
  exact (end_of_input_exits_zero_after_all_requests nat sample_run_handler
           sample_defs sample_arity_error sample_init_components
           (environ_set "config.json")
           [Accept 1; Accept 2; Complete 2; Complete 1] boot
           eq_refl eq_refl eq_refl).
Defined.

Lemma wrapper_propagates_facade_exception_witness :
  sample_execute_vm_command
  ∈ declared_tools nat sample_run_handler sample_defs sample_arity_error /\
  length ["pve1"; "100"; "uptime"]
  = length (parameters nat sample_execute_vm_command) /\
  delegation !! name nat sample_execute_vm_command
  = Some VMTools_execute_command /\
  sample_run_handler VMTools_execute_command ["pve1"; "100"; "uptime"] 0
  = (inl "node unreachable", 1) /\
  fn nat sample_execute_vm_command ["pve1"; "100"; "uptime"] sample_world
  = (inl (PyException "node unreachable"),
     {| backend := 1;
        calls := calls nat sample_world
                 ++ [(VMTools_execute_command, ["pve1"; "100"; "uptime"])] |}).
Proof.
  assert (sample_execute_vm_command
          ∈ declared_tools nat sample_run_handler sample_defs sample_arity_error) as Hin
    by (unfold declared_tools; repeat constructor).
  assert (delegation !! name nat sample_execute_vm_command
          = Some VMTools_execute_command) as Hd by (vm_compute; reflexivity).
  split; [exact Hin|]. split; [reflexivity|]. split; [exact Hd|].
  split; [reflexivity|].
  exact (wrapper_propagates_facade_exception nat sample_run_handler
           sample_defs sample_arity_error sample_execute_vm_command ["pve1"; "100"; "uptime"]
           sample_world VMTools_execute_command "node unreachable" 1
           Hin eq_refl Hd eq_refl).
Defined.

Lemma failed_constructor_never_starts_witness :
  truthy (environ_set "missing.json" "PROXMOX_MCP_CONFIG") = true /\
  sample_init_components
    (default "" (environ_set "missing.json" "PROXMOX_MCP_CONFIG"))
  = Some (PyException "config file not found") /\
  fst (sample_run (environ_set "missing.json") [Accept 1; Deliver SIGTERM]
         boot) = Exited 1 /\
  on_sigint (snd (sample_run (environ_set "missing.json")
                    [Accept 1; Deliver SIGTERM] boot)) = on_sigint boot /\
  on_sigterm (snd (sample_run (environ_set "missing.json")
                     [Accept 1; Deliver SIGTERM] boot)) = on_sigterm boot /\
  logged (snd (sample_run (environ_set "missing.json")
                 [Accept 1; Deliver SIGTERM] boot)) = logged boot /\
  in_flight (snd (sample_run (environ_set "missing.json")
                    [Accept 1; Deliver SIGTERM] boot)) = in_flight boot /\
  completed (snd (sample_run (environ_set "missing.json")
                    [Accept 1; Deliver SIGTERM] boot)) = completed boot.
Proof.
  split; [reflexivity|]. split; [reflexivity|].
  exact (failed_constructor_never_starts nat sample_run_handler sample_defs sample_arity_error
           sample_init_components (environ_set "missing.json")
           [Accept 1; Deliver SIGTERM] (PyException "config file not found")
           boot eq_refl eq_refl).
Defined.
